(** * Screen recorder example of go-astiav: a shallow embedding

    Sources:
    - [src/unnamed/part_000] : [SetupFFmpeg], [ImageRGBAtoAVFrame],
      [NewH264EncoderCodec];
    - [src/examples/screenrecorder/screencap.go] : [StartScreenCap],
      [main], [StartScreenRecording].

    Every library call of astiav, screenshot and the Go runtime is an
    external collaborator: its outcome is read from an environment record,
    and what the code does with it is recorded as an action in a trace.
    Deferred calls are replayed in LIFO order at every return. *)

From Stdlib Require Import ZArith List Bool Lia Sorted.
Import ListNotations.
Open Scope Z_scope.

(** ** Go machine integers *)

(** Two's complement wrap-around of Go's [int64] (and of [int], 64-bit). *)
Definition int64_wrap (z : Z) : Z :=
  let m := z mod 2 ^ 64 in if m <? 2 ^ 63 then m else m - 2 ^ 64.

(** Go's [/] on integers truncates toward zero ([Z.quot]); a zero divisor
    panics, which the callers below test before dividing. *)
Definition go_quot (a b : Z) : Z := Z.quot a b.

(** ** The astiav values the code manipulates *)

(** [astiav.Rational], built by [astiav.NewRational num den]. *)
Record Rational := NewRational { r_num : Z; r_den : Z }.

Definition Rational_eq_dec (a b : Rational) : {a = b} + {a <> b}.
Proof. decide equality; apply Z.eq_dec. Defined.

Inductive PixelFormat := PixelFormatNone | PixelFormatRgba | PixelFormatYuv420P.

(** [AV_CODEC_FLAG_GLOBAL_HEADER = 1 << 22]. *)
Definition CodecContextFlagGlobalHeader : Z := Z.shiftl 1 22.

(** [CodecContextFlags.Add]: set the bit(s) of the flag. *)
Definition flags_add (flags f : Z) : Z := Z.lor flags f.

(** Error values returned by astiav: the two sentinels the code tests with
    [errors.Is], and any other error. *)
Inductive AvError := ErrEof | ErrEagain | ErrOther (code : Z).

(** [errors.Is(err, astiav.ErrEof) || errors.Is(err, astiav.ErrEagain)] *)
Definition is_eof_or_eagain (e : AvError) : bool :=
  match e with ErrEof | ErrEagain => true | ErrOther _ => false end.

(** ** Encoder construction: [NewH264EncoderCodec] *)
Module Encoder.

(** Modelled from the spec: astiav's [CodecContext] (not under src/) is a
    record of the codec parameters, each setter stores the value it is
    given and each getter reads it back. *)
Record CodecContext := {
  cc_width : Z;
  cc_height : Z;
  cc_framerate : Rational;
  cc_time_base : Rational;
  cc_pix_fmt : PixelFormat;
  cc_bit_rate : Z;
  cc_flags : Z
}.

Definition SetWidth (c : CodecContext) (w : Z) : CodecContext :=
  {| cc_width := w; cc_height := cc_height c; cc_framerate := cc_framerate c;
     cc_time_base := cc_time_base c; cc_pix_fmt := cc_pix_fmt c;
     cc_bit_rate := cc_bit_rate c; cc_flags := cc_flags c |}.
Definition SetHeight (c : CodecContext) (h : Z) : CodecContext :=
  {| cc_width := cc_width c; cc_height := h; cc_framerate := cc_framerate c;
     cc_time_base := cc_time_base c; cc_pix_fmt := cc_pix_fmt c;
     cc_bit_rate := cc_bit_rate c; cc_flags := cc_flags c |}.
Definition SetFramerate (c : CodecContext) (r : Rational) : CodecContext :=
  {| cc_width := cc_width c; cc_height := cc_height c; cc_framerate := r;
     cc_time_base := cc_time_base c; cc_pix_fmt := cc_pix_fmt c;
     cc_bit_rate := cc_bit_rate c; cc_flags := cc_flags c |}.
Definition SetTimeBase (c : CodecContext) (r : Rational) : CodecContext :=
  {| cc_width := cc_width c; cc_height := cc_height c; cc_framerate := cc_framerate c;
     cc_time_base := r; cc_pix_fmt := cc_pix_fmt c;
     cc_bit_rate := cc_bit_rate c; cc_flags := cc_flags c |}.
Definition SetPixelFormat (c : CodecContext) (p : PixelFormat) : CodecContext :=
  {| cc_width := cc_width c; cc_height := cc_height c; cc_framerate := cc_framerate c;
     cc_time_base := cc_time_base c; cc_pix_fmt := p;
     cc_bit_rate := cc_bit_rate c; cc_flags := cc_flags c |}.
Definition SetBitRate (c : CodecContext) (b : Z) : CodecContext :=
  {| cc_width := cc_width c; cc_height := cc_height c; cc_framerate := cc_framerate c;
     cc_time_base := cc_time_base c; cc_pix_fmt := cc_pix_fmt c;
     cc_bit_rate := b; cc_flags := cc_flags c |}.
Definition SetFlags (c : CodecContext) (f : Z) : CodecContext :=
  {| cc_width := cc_width c; cc_height := cc_height c; cc_framerate := cc_framerate c;
     cc_time_base := cc_time_base c; cc_pix_fmt := cc_pix_fmt c;
     cc_bit_rate := cc_bit_rate c; cc_flags := f |}.

(** Outcomes of the two library calls: [astiav.FindEncoder] returns a
    codec or nil, [astiav.AllocCodecContext] a context (with the library's
    defaults, [ee_alloc_ctx]) or nil. *)
Record EncEnv := {
  ee_find_encoder : bool;
  ee_alloc_ctx : option CodecContext
}.

(** The two [errors.New] values the function can return. *)
Inductive EncError := ErrFindingEncoder | ErrAllocatingCodecCtx.

Definition NewH264EncoderCodec (ee : EncEnv) (width height fps bitrate : Z)
  : EncError + CodecContext :=
  if negb (ee_find_encoder ee) then inl ErrFindingEncoder else
  match ee_alloc_ctx ee with
  | None => inl ErrAllocatingCodecCtx
  | Some codecCtx0 =>
      let c1 := SetWidth codecCtx0 width in
      let c2 := SetHeight c1 height in
      let c3 := SetFramerate c2 (NewRational fps 1) in
      let c4 := SetTimeBase c3 (NewRational 1 (90 * 1000)) in
      let c5 := SetPixelFormat c4 PixelFormatYuv420P in
      let c6 := SetBitRate c5 bitrate in
      let c7 := SetFlags c6 (flags_add (cc_flags c6) CodecContextFlagGlobalHeader) in
      inr c7
  end.

End Encoder.

(** ** Bitmap conversion: [ImageRGBAtoAVFrame] *)
Module Converter.

(** The three resources the function allocates: the intermediate RGBA frame
    [srcFrame], the returned YUV frame [coloredFrame] and the scale context
    [swsCtx]. *)
Inductive Resource := SrcFrame | ColoredFrame | SwsCtx.

Definition Resource_eq_dec (a b : Resource) : {a = b} + {a <> b}.
Proof. decide equality. Defined.

Inductive CAction := CAlloc (r : Resource) | CFree (r : Resource).

(** Outcomes of the fallible library calls, in source order ([None] is a
    nil error). The code does not check the two [astiav.AllocFrame()]
    results (lines 31 and 59): the model takes both frames to be allocated,
    and leaves out the nil dereference in [SetWidth] that a nil frame would
    cause. *)
Record ConvEnv := {
  ce_src_alloc_buffer : option AvError;     (* srcFrame.AllocBuffer(1) *)
  ce_make_writable : option AvError;        (* srcFrame.MakeWritable() *)
  ce_from_image : option AvError;           (* srcFrame.Data().FromImage(img) *)
  ce_colored_alloc_buffer : option AvError; (* coloredFrame.AllocBuffer(1) *)
  ce_create_sws : option AvError;           (* astiav.CreateSoftwareScaleContext *)
  ce_scale : option AvError                 (* swsCtx.ScaleFrame *)
}.

(** The [(frame, error)] result: the frame handed to the caller, or the error. *)
Inductive ConvResult := ConvFrame (r : Resource) | ConvErr (e : AvError).

(** Each return runs the deferred calls registered so far: [d0] is
    [defer srcFrame.Free()], [d1] adds [defer swsCtx.Free()] in front. *)
Definition ImageRGBAtoAVFrame (ce : ConvEnv) : list CAction * ConvResult :=
  let t0 := [CAlloc SrcFrame] in
  let d0 := [CFree SrcFrame] in
  match ce_src_alloc_buffer ce with Some e => (t0 ++ d0, ConvErr e) | None =>
  match ce_make_writable ce with Some e => (t0 ++ d0, ConvErr e) | None =>
  match ce_from_image ce with Some e => (t0 ++ d0, ConvErr e) | None =>
  let t1 := t0 ++ [CAlloc ColoredFrame] in
  match ce_colored_alloc_buffer ce with Some e => (t1 ++ d0, ConvErr e) | None =>
  match ce_create_sws ce with Some e => (t1 ++ d0, ConvErr e) | None =>
  let t2 := t1 ++ [CAlloc SwsCtx] in
  let d1 := CFree SwsCtx :: d0 in
  match ce_scale ce with
  | Some e => (t2 ++ d1, ConvErr e)
  | None => (t2 ++ d1, ConvFrame ColoredFrame)
  end end end end end end.

(** The resources still allocated after a trace. *)
Fixpoint live (tr : list CAction) (acc : list Resource) : list Resource :=
  match tr with
  | [] => acc
  | CAlloc r :: rest => live rest (acc ++ [r])
  | CFree r :: rest => live rest (remove Resource_eq_dec r acc)
  end.

(** What the ownership contract asks: at return, only the returned frame is
    still allocated. *)
Definition owned_by_caller (res : ConvResult) : list Resource :=
  match res with ConvFrame r => [r] | ConvErr _ => [] end.

End Converter.

(** ** Screen sampler: [StartScreenCap] *)
Module Sampler.

Inductive SelCase := SelDone | SelTick.

(** Go's [select] over [<-ctx.Done()] and [<-ticker.C]: when both cases are
    ready the runtime picks one of them uniformly at random ([pick] is that
    choice); when one is ready it is taken; when none is, the goroutine
    blocks ([None]). *)
Definition go_select (done tick : bool) (pick : SelCase) : option SelCase :=
  match done, tick with
  | true, true => Some pick
  | true, false => Some SelDone
  | false, true => Some SelTick
  | false, false => None
  end.

(** [screenshot.CaptureRect(res)]: a bitmap or a non-nil error. *)
Inductive CaptureResult := CapOk (img : Z) | CapErr (err : Z).

(** One pass of the [for]/[select]: whether the context is done, whether a
    tick is pending, the scheduler's pick, the capture outcome, and whether
    the consumer receives the bitmap from the unbuffered [imgChan]. The send
    [imgChan <- img] completes only when the consumer's own [select] takes
    [<-imgChan]; once the consumer has returned (on [ctx.Done()] or an
    error) nobody receives, and the send blocks for good. *)
Record Round := {
  rd_done : bool;
  rd_tick : bool;
  rd_pick : SelCase;
  rd_capture : CaptureResult;
  rd_recv : bool
}.

(** Observable effects: a capture call, and a bitmap handed over on
    [imgChan] (a completed send). *)
Inductive Obs := OCapture | OForward (img : Z).

(** [SReturned None] is [return nil], [SReturned (Some e)] is [return err];
    [SBlocked] is a goroutine stuck for good in [imgChan <- img]; [SPending]
    is a loop still running when the rounds run out. *)
Inductive SamplerEnd := SReturned (err : option Z) | SPanicked | SBlocked | SPending.

Fixpoint sampler_loop (rounds : list Round) : list Obs * SamplerEnd :=
  match rounds with
  | [] => ([], SPending)
  | rd :: rest =>
      match go_select (rd_done rd) (rd_tick rd) (rd_pick rd) with
      | None => sampler_loop rest
      | Some SelDone => ([], SReturned None)
      | Some SelTick =>
          match rd_capture rd with
          | CapErr e => ([OCapture], SReturned (Some e))
          | CapOk img =>
              if rd_recv rd then
                let (o, fin) := sampler_loop rest in (OCapture :: OForward img :: o, fin)
              else ([OCapture], SBlocked)
          end
      end
  end.

(** [waitTime := time.Second / time.Duration(fps)] panics on [fps = 0];
    [time.NewTicker] panics on a non-positive interval. *)
Definition StartScreenCap (fps : Z) (rounds : list Round) : list Obs * SamplerEnd :=
  if fps =? 0 then ([], SPanicked) else
  let waitTime := go_quot 1000000000 fps in
  if waitTime <=? 0 then ([], SPanicked) else
  sampler_loop rounds.

End Sampler.

(** ** The orchestrator: [StartScreenRecording] *)
Module Recorder.
Import Encoder.

(** The calls of [StartScreenRecording] that matter for its contract, in
    the order they are made. [ASendFrame flush] is [encCtx.SendFrame]:
    with [flush = true] it would be the end-of-stream [SendFrame(nil)].
    [AWriteFrame h] is [outputCtx.WriteFrame(packet)] where [h] is the list
    of time-base rescales applied to the packet's timestamps since the
    encoder produced it. *)
Inductive Action :=
| AAllocOutputCtx
| ANewEncoder
| ANewStream
| AOpenCodec
| AParamsFromCodecCtx
| ASetStreamTimeBase (tb : Rational)
| AOpenIO
| ASetPb
| AWriteHeader
| AStartSampler
| AConvert
| ASetPts (pts : Z)
| ASendFrame (flush : bool)
| AAllocPacket
| AReceivePacket
| ARescaleTs (src dst : Rational)
| AWriteFrame (rescales : list (Rational * Rational))
| AFreePacket
| AStop
| AWriteTrailer
| AFreeIO
| AFreeCodecCtx
| AFreeOutputCtx.

(** [packet.RescaleTs(src, dst)] on the rescale history of the packet. *)
Definition RescaleTs (h : list (Rational * Rational)) (src dst : Rational)
  : list (Rational * Rational) := h ++ [(src, dst)].

(** One [encCtx.ReceivePacket(packet)] outcome: a packet, followed by the
    result of writing it, or an error. *)
Inductive DrainStep :=
| DrPacket (write_err : option AvError)
| DrErr (e : AvError).

(** How the inner [for] ends: [break], [return], or still polling. *)
Inductive DrainEnd := DrainBreak | DrainFatal | DrainPending.

(** The inner [for] loop (lines 188-207). A packet just received carries
    timestamps of the encoder, with no rescale applied ([[]]). *)
Fixpoint drain (encTB streamTB : Rational) (steps : list DrainStep)
  : list Action * DrainEnd :=
  match steps with
  | [] => ([], DrainPending)
  | DrErr e :: _ =>
      ([AReceivePacket], if is_eof_or_eagain e then DrainBreak else DrainFatal)
  | DrPacket w :: rest =>
      let packet := RescaleTs [] encTB streamTB in
      let t := [AReceivePacket; ARescaleTs encTB streamTB; AWriteFrame packet] in
      match w with
      | Some _ => (t, DrainFatal)
      | None => let (t', fin) := drain encTB streamTB rest in (t ++ t', fin)
      end
  end.

(** Outcomes of the library calls made for one received bitmap:
    [ImageRGBAtoAVFrame] (its error, with both frames allocated as in
    [Converter.ImageRGBAtoAVFrame]), [SendFrame], [AllocPacket] (nil or
    not) and the receive loop. *)
Record ImageRound := {
  ir_conv : option AvError;
  ir_send : option AvError;
  ir_alloc_packet : bool;
  ir_drain : list DrainStep
}.

(** The case the outer [select] takes: [<-ctx.Done()] or [<-imgChan]. *)
Inductive Event := EvDone | EvImage (r : ImageRound).

(** [Panicked] is the run-time panic of the division at line 148. *)
Inductive RunEnd := Returned | Pending | Panicked.

(** The outer [for] loop (lines 152-209). It returns its trace, the number
    of [defer packet.Free()] registered, and how it ended. Every [return]
    inside it ([defer ctx.Done()] defers a call that has no effect) leaves
    the deferred calls to the caller. *)
Fixpoint main_loop (encTB streamTB : Rational) (pts frameNumber : Z)
  (evs : list Event) : list Action * nat * RunEnd :=
  match evs with
  | [] => ([], 0%nat, Pending)
  | EvDone :: _ => ([], 0%nat, Returned)
  | EvImage r :: rest =>
      match ir_conv r with
      | Some _ => ([AConvert], 0%nat, Returned)
      | None =>
      let t0 := [AConvert; ASetPts (int64_wrap (frameNumber * pts)); ASendFrame false] in
      match ir_send r with
      | Some _ => (t0, 0%nat, Returned)
      | None =>
      let frameNumber' := int64_wrap (frameNumber + 1) in
      let t1 := t0 ++ [AAllocPacket] in
      if negb (ir_alloc_packet r) then (t1, 0%nat, Returned) else
      match drain encTB streamTB (ir_drain r) with
      | (td, DrainBreak) =>
          let '(tr, n, fin) := main_loop encTB streamTB pts frameNumber' rest in
          (t1 ++ td ++ tr, S n, fin)
      | (td, DrainFatal) => (t1 ++ td, 1%nat, Returned)
      | (td, DrainPending) => (t1 ++ td, 1%nat, Pending)
      end
      end
      end
  end.

(** Outcomes of the library calls of the set-up phase, and the events of
    the main loop. [re_header_tb] is the stream time base after
    [WriteHeader] when the muxer replaces it ([None]: kept as set). *)
Record RecEnv := {
  re_alloc_output : bool;
  re_bit_rate : Z;
  re_enc : EncEnv;
  re_new_stream : bool;
  re_open : option AvError;
  re_params : option AvError;
  re_open_io : option AvError;
  re_header : option AvError;
  re_header_tb : option Rational;
  re_trailer : option AvError;
  re_events : list Event
}.

(** [StartScreenRecording(filename, width, height, fps)]. The deferred
    calls, LIFO: [d0] [outputCtx.Free], [d1] [encCtx.Free], [d2]
    [ioCtx.Free], [d3] the trailer closure (a failing [WriteTrailer] is
    only printed), [d4] [stop]; on a return from the loop, one
    [packet.Free] per allocated packet runs first. A division by zero at
    line 148 panics; what runs after the panic is left out. *)
Definition StartScreenRecording (width height fps : Z) (env : RecEnv)
  : list Action * RunEnd :=
  let t0 := [AAllocOutputCtx] in
  if negb (re_alloc_output env) then (t0, Returned) else
  let d0 := [AFreeOutputCtx] in
  let t1 := t0 ++ [ANewEncoder] in
  match NewH264EncoderCodec (re_enc env) width height fps (re_bit_rate env) with
  | inl _ => (t1 ++ d0, Returned)
  | inr encCtx =>
  let d1 := AFreeCodecCtx :: d0 in
  let t2 := t1 ++ [ANewStream] in
  if negb (re_new_stream env) then (t2 ++ d1, Returned) else
  let t3 := t2 ++ [AOpenCodec] in
  match re_open env with Some _ => (t3 ++ d1, Returned) | None =>
  let t4 := t3 ++ [AParamsFromCodecCtx] in
  match re_params env with Some _ => (t4 ++ d1, Returned) | None =>
  let t5 := t4 ++ [ASetStreamTimeBase (cc_time_base encCtx); AOpenIO] in
  match re_open_io env with Some _ => (t5 ++ d1, Returned) | None =>
  let d2 := AFreeIO :: d1 in
  let t6 := t5 ++ [ASetPb; AWriteHeader] in
  match re_header env with Some _ => (t6 ++ d2, Returned) | None =>
  let streamTB :=
    match re_header_tb env with Some tb => tb | None => cc_time_base encCtx end in
  let d4 := AStop :: AWriteTrailer :: d2 in
  let t7 := t6 ++ [AStartSampler] in
  if fps =? 0 then (t7, Panicked) else
  let pts := go_quot (90 * 1000) fps in
  let '(tl, npk, fin) := main_loop (cc_time_base encCtx) streamTB pts 0 (re_events env) in
  match fin with
  | Returned => (t7 ++ tl ++ repeat AFreePacket npk ++ d4, Returned)
  | _ => (t7 ++ tl, fin)
  end
  end end end end
  end.

(** The timestamps stamped on the submitted frames, in order. *)
Fixpoint stamped_pts (tr : list Action) : list Z :=
  match tr with
  | [] => []
  | ASetPts p :: rest => p :: stamped_pts rest
  | _ :: rest => stamped_pts rest
  end.

End Recorder.

(** ** Concrete inputs used by the examples below *)
Module Scenarios.
Import Encoder Converter Sampler Recorder.

(** A freshly allocated codec context with the library's zero defaults. *)
Definition ctx_default : CodecContext :=
  {| cc_width := 0; cc_height := 0; cc_framerate := NewRational 0 1;
     cc_time_base := NewRational 0 1; cc_pix_fmt := PixelFormatNone;
     cc_bit_rate := 0; cc_flags := 0 |}.

Definition enc_ok : EncEnv := {| ee_find_encoder := true; ee_alloc_ctx := Some ctx_default |}.

(** What [NewH264EncoderCodec enc_ok 1920 1080 30 0] builds. *)
Definition ctx_1080p30 : CodecContext :=
  {| cc_width := 1920; cc_height := 1080; cc_framerate := NewRational 30 1;
     cc_time_base := NewRational 1 90000; cc_pix_fmt := PixelFormatYuv420P;
     cc_bit_rate := 0; cc_flags := 4194304 |}.

(** A bitmap that converts, is accepted, and yields one packet. *)
Definition img_one_packet : ImageRound :=
  {| ir_conv := None; ir_send := None; ir_alloc_packet := true;
     ir_drain := [DrPacket None; DrErr ErrEagain] |}.

(** A bitmap after which [ReceivePacket] reports end of stream. *)
Definition img_eof : ImageRound :=
  {| ir_conv := None; ir_send := None; ir_alloc_packet := true;
     ir_drain := [DrErr ErrEof] |}.

(** A bitmap whose submission fails with end of stream. *)
Definition img_send_eof : ImageRound :=
  {| ir_conv := None; ir_send := Some ErrEof; ir_alloc_packet := true;
     ir_drain := [] |}.

(** Every set-up call succeeds and the muxer keeps the stream time base. *)
Definition env_with (evs : list Event) : RecEnv :=
  {| re_alloc_output := true; re_bit_rate := 0; re_enc := enc_ok;
     re_new_stream := true; re_open := None; re_params := None;
     re_open_io := None; re_header := None; re_header_tb := None;
     re_trailer := None; re_events := evs |}.

Definition env_three_frames : RecEnv :=
  env_with [EvImage img_one_packet; EvImage img_one_packet; EvImage img_one_packet; EvDone].

Definition env_eof_then_frame : RecEnv :=
  env_with [EvImage img_eof; EvImage img_send_eof].

(** The header write fails ([EIO]). *)
Definition env_header_fails : RecEnv :=
  {| re_alloc_output := true; re_bit_rate := 0; re_enc := enc_ok;
     re_new_stream := true; re_open := None; re_params := None;
     re_open_io := None; re_header := Some (ErrOther (-5)); re_header_tb := None;
     re_trailer := None; re_events := [EvImage img_one_packet; EvDone] |}.

(** The output file cannot be opened ([ENOENT]). *)
Definition env_io_fails : RecEnv :=
  {| re_alloc_output := true; re_bit_rate := 0; re_enc := enc_ok;
     re_new_stream := true; re_open := None; re_params := None;
     re_open_io := Some (ErrOther (-2)); re_header := None; re_header_tb := None;
     re_trailer := None; re_events := [EvImage img_one_packet; EvDone] |}.

(** A pass where cancellation and a tick are both ready and the runtime
    picks the tick. *)
Definition round_race_tick : Round :=
  {| rd_done := true; rd_tick := true; rd_pick := SelTick; rd_capture := CapOk 7 ;
     rd_recv := true |}.

Definition round_race_done : Round :=
  {| rd_done := true; rd_tick := true; rd_pick := SelDone; rd_capture := CapOk 8 ;
     rd_recv := true |}.

(** Cancellation and a tick are both ready, the runtime picks the tick, and
    the consumer has already returned on [ctx.Done()], so the bitmap is
    never received. *)
Definition round_race_tick_unreceived : Round :=
  {| rd_done := true; rd_tick := true; rd_pick := SelTick; rd_capture := CapOk 9;
     rd_recv := false |}.

Definition round_tick (img : Z) : Round :=
  {| rd_done := false; rd_tick := true; rd_pick := SelTick; rd_capture := CapOk img ;
     rd_recv := true |}.

Definition round_capture_fails : Round :=
  {| rd_done := false; rd_tick := true; rd_pick := SelTick; rd_capture := CapErr 1 ;
     rd_recv := true |}.

(** Every conversion call succeeds. *)
Definition conv_all_ok : ConvEnv :=
  {| ce_src_alloc_buffer := None; ce_make_writable := None; ce_from_image := None;
     ce_colored_alloc_buffer := None; ce_create_sws := None; ce_scale := None |}.

(** Every conversion call succeeds but building the scale context. *)
Definition conv_sws_fails : ConvEnv :=
  {| ce_src_alloc_buffer := None; ce_make_writable := None; ce_from_image := None;
     ce_colored_alloc_buffer := None; ce_create_sws := Some (ErrOther (-12));
     ce_scale := None |}.

End Scenarios.

(** ** The program entry point: [main] *)
Module Main.
Import Recorder.

(** [main] prints, reads the bounds of display 0 and calls
    [StartScreenRecording("output.mp4", bounds.Dx(), bounds.Dy(), 30)]. *)
Definition main (dx dy : Z) (env : RecEnv) : list Action * RunEnd :=
  StartScreenRecording dx dy 30 env.

(** The sampler goroutine that [StartScreenRecording] starts for [main]:
    [StartScreenCap(ctx, 30, imgChan)]. *)
Definition main_sampler (rounds : list Sampler.Round) : list Sampler.Obs * Sampler.SamplerEnd :=
  Sampler.StartScreenCap 30 rounds.

End Main.

(** ** Counting actions of a trace *)
Module TraceCount.
Import Recorder.

Definition count_where (p : Action -> bool) (tr : list Action) : nat :=
  length (filter p tr).

Definition is_free_output (a : Action) : bool :=
  match a with AFreeOutputCtx => true | _ => false end.
Definition is_free_codec (a : Action) : bool :=
  match a with AFreeCodecCtx => true | _ => false end.
Definition is_free_io (a : Action) : bool :=
  match a with AFreeIO => true | _ => false end.
Definition is_alloc_packet (a : Action) : bool :=
  match a with AAllocPacket => true | _ => false end.
Definition is_free_packet (a : Action) : bool :=
  match a with AFreePacket => true | _ => false end.

(** A nil error. *)
Definition succeeded (e : option AvError) : bool :=
  match e with None => true | Some _ => false end.

(** Whether [NewH264EncoderCodec] hands back a codec context. *)
Definition encoder_created (ee : Encoder.EncEnv) (width height fps bitrate : Z) : bool :=
  match Encoder.NewH264EncoderCodec ee width height fps bitrate with
  | inr _ => true
  | inl _ => false
  end.

End TraceCount.

(** * Properties *)

(** ** Generic facts *)

Lemma int64_wrap_small (z : Z) :
  - 2 ^ 63 <= z < 2 ^ 63 -> int64_wrap z = z.
Proof.
  intros Hz. unfold int64_wrap.
  destruct (Z.le_gt_cases 0 z) as [Hpos | Hneg].
  - rewrite Z.mod_small by lia.
    destruct (Z.ltb_spec z (2 ^ 63)); lia.
  - replace (z mod 2 ^ 64) with (z + 2 ^ 64).
    + destruct (Z.ltb_spec (z + 2 ^ 64) (2 ^ 63)); lia.
    + apply Z.mod_unique with (q := -1); lia.
Qed.

Lemma go_quot_abs_le (a b : Z) :
  b <> 0 -> Z.abs (go_quot a b) <= Z.abs a.
Proof.
  intros Hb. unfold go_quot.
  rewrite <- Z.quot_abs by exact Hb.
  rewrite Z.quot_div_nonneg by lia.
  apply Z.div_le_upper_bound; nia.
Qed.

(** ** Encoder configuration *)
Module EncoderFacts.
Import Encoder Scenarios.

(** C9: whatever the frame rate, bit rate and library defaults, the codec
    context returned by [NewH264EncoderCodec] has time base 1/90000, frame
    rate fps/1, pixel format planar YUV 4:2:0 and the global-header flag
    set. *)
Theorem NewH264EncoderCodec_config (ee : EncEnv) (width height fps bitrate : Z)
  (c : CodecContext) :
  NewH264EncoderCodec ee width height fps bitrate = inr c ->
  cc_time_base c = NewRational 1 90000 /\
  cc_framerate c = NewRational fps 1 /\
  cc_pix_fmt c = PixelFormatYuv420P /\
  Z.testbit (cc_flags c) 22 = true.
Proof.
  unfold NewH264EncoderCodec.
  destruct (ee_find_encoder ee); unfold negb; [|discriminate].
  destruct (ee_alloc_ctx ee) as [c0|]; [|discriminate].
  intros H. injection H as <-.
  repeat split.
  unfold SetFlags; cbn [cc_flags]. unfold flags_add. rewrite Z.lor_spec.
  replace (Z.testbit CodecContextFlagGlobalHeader 22) with true by reflexivity.
  apply orb_true_r.
Qed.

Lemma NewH264EncoderCodec_config_witness :
  NewH264EncoderCodec enc_ok 1920 1080 30 0 = inr ctx_1080p30 /\
  (cc_time_base ctx_1080p30 = NewRational 1 90000 /\
   cc_framerate ctx_1080p30 = NewRational 30 1 /\
   cc_pix_fmt ctx_1080p30 = PixelFormatYuv420P /\
   Z.testbit (cc_flags ctx_1080p30) 22 = true).
Proof.
  split.
  - reflexivity.
  - apply (NewH264EncoderCodec_config enc_ok 1920 1080 30 0 ctx_1080p30).
    reflexivity.
Defined.

End EncoderFacts.

(** ** Timestamps of the submitted frames *)
Module PtsFacts.
Import Encoder Recorder Scenarios.

Lemma stamped_pts_app (a b : list Action) :
  stamped_pts (a ++ b) = stamped_pts a ++ stamped_pts b.
Proof. induction a as [|x a IH]; [reflexivity|]. destruct x; simpl; rewrite ?IH; reflexivity. Qed.

Lemma stamped_pts_repeat (n : nat) :
  stamped_pts (repeat AFreePacket n) = [].
Proof. induction n; simpl; auto. Qed.

Lemma drain_no_pts (encTB streamTB : Rational) (steps : list DrainStep) :
  stamped_pts (fst (drain encTB streamTB steps)) = [].
Proof.
  induction steps as [|s steps IH]; [reflexivity|].
  destruct s as [[w|]|e]; simpl; try reflexivity.
  destruct (drain encTB streamTB steps) as [t' fin]. simpl in *. exact IH.
Qed.

Lemma main_loop_pts (encTB streamTB : Rational) (inc : Z) (evs : list Event) :
  forall k : nat,
  Z.abs inc <= 90000 ->
  Z.of_nat (k + length evs) * 90000 < 2 ^ 63 ->
  let ps := stamped_pts (fst (fst (main_loop encTB streamTB inc (Z.of_nat k) evs))) in
  ps = map (fun n => Z.of_nat n * inc) (seq k (length ps)).
Proof.
  induction evs as [|ev evs IH]; intros k Hinc Hb; [reflexivity|].
  destruct ev as [|r]; [reflexivity|].
  simpl length in Hb.
  apply Z.abs_le in Hinc.
  assert (Hk : int64_wrap (Z.of_nat k * inc) = Z.of_nat k * inc).
  { apply int64_wrap_small. rewrite Nat2Z.inj_add, Nat2Z.inj_succ in Hb. nia. }
  simpl main_loop.
  destruct (ir_conv r); [reflexivity|].
  destruct (ir_send r); [simpl; rewrite Hk; reflexivity|].
  destruct (ir_alloc_packet r); [|simpl; rewrite Hk; reflexivity].
  simpl negb; cbv iota.
  pose proof (drain_no_pts encTB streamTB (ir_drain r)) as Hd.
  destruct (drain encTB streamTB (ir_drain r)) as [td fin] eqn:Edrain.
  simpl fst in Hd.
  destruct fin.
  - assert (Hs : int64_wrap (Z.of_nat k + 1) = Z.of_nat (S k)).
    { rewrite Nat2Z.inj_succ. apply int64_wrap_small.
      rewrite Nat2Z.inj_add, Nat2Z.inj_succ in Hb. lia. }
    rewrite Hs.
    assert (Hinc' : Z.abs inc <= 90000) by (apply Z.abs_le; lia).
    assert (Hb' : Z.of_nat (S k + length evs) * 90000 < 2 ^ 63) by (replace (S k + length evs)%nat with (k + S (length evs))%nat by lia; exact Hb).
    pose proof (IH (S k) Hinc' Hb') as Hrec.
    destruct (main_loop encTB streamTB inc (Z.of_nat (S k)) evs) as [[tr n] fin'].
    simpl fst in *.
    cbv zeta. simpl stamped_pts. rewrite stamped_pts_app, Hd, Hk. simpl.
    cbv zeta in Hrec. rewrite Hrec at 1. simpl.
    reflexivity.
  - cbv zeta. simpl stamped_pts. rewrite Hd, Hk. reflexivity.
  - cbv zeta. simpl stamped_pts. rewrite Hd, Hk. reflexivity.
Qed.

Lemma main_loop_pts_from_zero (encTB streamTB : Rational) (inc : Z)
  (evs : list Event) (tr : list Action) (n : nat) (fin : RunEnd) :
  Z.abs inc <= 90000 ->
  Z.of_nat (length evs) * 90000 < 2 ^ 63 ->
  main_loop encTB streamTB inc 0 evs = (tr, n, fin) ->
  stamped_pts tr = map (fun n => Z.of_nat n * inc) (seq 0 (length (stamped_pts tr))).
Proof.
  intros Hinc Hb Hm.
  pose proof (main_loop_pts encTB streamTB inc evs 0 Hinc Hb) as L.
  simpl Z.of_nat in L. rewrite Hm in L. exact L.
Qed.

(** C1: the frames submitted to the encoder are stamped, in order, with
    0 * inc, 1 * inc, 2 * inc, ..., where inc = 90000 / fps in Go's integer
    division: the n-th submitted frame (counting from 0) carries n * inc,
    computed by one multiplication of the frame counter, which starts at 0
    and grows by one per submitted frame. The hypothesis keeps every count
    of frames the run can reach below the [int64] overflow of the product. *)
Theorem StartScreenRecording_pts (width height fps : Z) (env : RecEnv) :
  Z.of_nat (length (re_events env)) * 90000 < 2 ^ 63 ->
  let ps := stamped_pts (fst (StartScreenRecording width height fps env)) in
  ps = map (fun n => Z.of_nat n * go_quot (90 * 1000) fps) (seq 0 (length ps)).
Proof.
  intros Hb. unfold StartScreenRecording.
  destruct (re_alloc_output env); [|reflexivity].
  destruct (NewH264EncoderCodec (re_enc env) width height fps (re_bit_rate env))
    as [e|encCtx]; [reflexivity|].
  destruct (re_new_stream env); [|reflexivity].
  destruct (re_open env); [reflexivity|].
  destruct (re_params env); [reflexivity|].
  destruct (re_open_io env); [reflexivity|].
  destruct (re_header env); [reflexivity|].
  destruct (fps =? 0) eqn:Hf; [reflexivity|].
  apply Z.eqb_neq in Hf.
  assert (Hinc : Z.abs (go_quot (90 * 1000) fps) <= 90000)
    by (apply (Z.le_trans _ _ _ (go_quot_abs_le _ _ Hf)); reflexivity).
  cbv zeta.
  destruct (main_loop _ _ _ 0 (re_events env)) as [[tl npk] fin] eqn:Hm.
  apply main_loop_pts_from_zero in Hm; [|exact Hinc|exact Hb].
  destruct fin; simpl fst; simpl stamped_pts;
    rewrite ?stamped_pts_app, ?stamped_pts_repeat;
    simpl stamped_pts; rewrite ?app_nil_r, ?app_nil_l; exact Hm.
Qed.

Lemma StartScreenRecording_pts_witness :
  Z.of_nat (length (re_events env_three_frames)) * 90000 < 2 ^ 63 /\
  stamped_pts (fst (StartScreenRecording 1920 1080 30 env_three_frames)) = [0; 3000; 6000] /\
  (let ps := stamped_pts (fst (StartScreenRecording 1920 1080 30 env_three_frames)) in
   ps = map (fun n => Z.of_nat n * go_quot (90 * 1000) 30) (seq 0 (length ps))).
Proof.
  split; [|split].
  - simpl. lia.
  - reflexivity.
  - apply (StartScreenRecording_pts 1920 1080 30 env_three_frames). simpl. lia.
Defined.

End PtsFacts.

(** ** Set-up failures *)
Module SetupFacts.
Import Encoder Recorder Scenarios.

Ltac early_return :=
  split; [reflexivity | simpl; intuition discriminate].

(** C7: when the output context cannot be allocated, the H.264 encoder is
    not found, the codec context cannot be allocated, or the output file
    cannot be opened, [StartScreenRecording] returns and the screen
    sampler goroutine is never started. *)
Theorem StartScreenRecording_setup_failure_no_capture
  (width height fps : Z) (env : RecEnv) :
  re_alloc_output env = false \/
  ee_find_encoder (re_enc env) = false \/
  ee_alloc_ctx (re_enc env) = None \/
  re_open_io env <> None ->
  snd (StartScreenRecording width height fps env) = Returned /\
  ~ In AStartSampler (fst (StartScreenRecording width height fps env)).
Proof.
  unfold StartScreenRecording, NewH264EncoderCodec.
  intros [H|[H|[H|H]]].
  - rewrite H. early_return.
  - destruct (re_alloc_output env); [|early_return].
    rewrite H. early_return.
  - destruct (re_alloc_output env); [|early_return].
    destruct (ee_find_encoder (re_enc env)); [|early_return].
    rewrite H. early_return.
  - destruct (re_open_io env) as [e|]; [|congruence].
    destruct (re_alloc_output env); [|early_return].
    destruct (ee_find_encoder (re_enc env)); [|early_return].
    destruct (ee_alloc_ctx (re_enc env)); [|early_return].
    destruct (re_new_stream env); [|early_return].
    destruct (re_open env); [early_return|].
    destruct (re_params env); [early_return|].
    early_return.
Qed.

Lemma StartScreenRecording_setup_failure_no_capture_witness :
  re_open_io env_io_fails <> None /\
  (snd (StartScreenRecording 1920 1080 30 env_io_fails) = Returned /\
   ~ In AStartSampler (fst (StartScreenRecording 1920 1080 30 env_io_fails))).
Proof.
  split.
  - discriminate.
  - apply (StartScreenRecording_setup_failure_no_capture 1920 1080 30 env_io_fails).
    right; right; right. discriminate.
Defined.

End SetupFacts.

(** ** The sampler loop *)
Module SamplerFacts.
Import Sampler Scenarios.

(** A pass of the loop that neither returns nor panics. *)
Definition continues (rd : Round) : Prop :=
  match go_select (rd_done rd) (rd_tick rd) (rd_pick rd) with
  | None => True
  | Some SelDone => False
  | Some SelTick => (exists img, rd_capture rd = CapOk img) /\ rd_recv rd = true
  end.

(** The pass on which the loop returns [r]: cancellation with [nil], or a
    failed capture with its error. *)
Definition stops_with (rd : Round) (r : option Z) : Prop :=
  (go_select (rd_done rd) (rd_tick rd) (rd_pick rd) = Some SelDone /\ r = None) \/
  (exists e, go_select (rd_done rd) (rd_tick rd) (rd_pick rd) = Some SelTick /\
             rd_capture rd = CapErr e /\ r = Some e).

Lemma sampler_loop_returns (rounds : list Round) (obs : list Obs) (r : option Z) :
  sampler_loop rounds = (obs, SReturned r) ->
  exists pre rd post,
    rounds = pre ++ rd :: post /\ Forall continues pre /\ stops_with rd r.
Proof.
  revert obs.
  induction rounds as [|rd rounds IH]; intros obs H; [discriminate|].
  simpl in H.
  destruct (go_select (rd_done rd) (rd_tick rd) (rd_pick rd)) as [[|]|] eqn:Es.
  - injection H as <- <-.
    exists [], rd, rounds. split; [reflexivity|]. split; [constructor|].
    left. split; [exact Es | reflexivity].
  - destruct (rd_capture rd) as [img|e] eqn:Ec.
    + destruct (rd_recv rd) eqn:Er; [|discriminate].
      destruct (sampler_loop rounds) as [o fin] eqn:El.
      injection H as <- ->.
      destruct (IH o eq_refl) as (pre & rd' & post & -> & Hpre & Hstop).
      exists (rd :: pre), rd', post. split; [reflexivity|]. split; [|exact Hstop].
      constructor; [|exact Hpre].
      unfold continues. rewrite Es. split; [exists img; exact Ec | exact Er].
    + injection H as <- <-.
      exists [], rd, rounds. split; [reflexivity|]. split; [constructor|].
      right. exists e. split; [exact Es|]. split; [exact Ec | reflexivity].
  - destruct (IH obs H) as (pre & rd' & post & -> & Hpre & Hstop).
    exists (rd :: pre), rd', post. split; [reflexivity|]. split; [|exact Hstop].
    constructor; [|exact Hpre].
    unfold continues. rewrite Es. exact I.
Qed.

(** C10: when [StartScreenCap] returns [r], the passes before the last
    neither returned nor failed, and the last one either took the
    cancellation case and returned [nil], or took the tick, and the capture
    failed with the (non-nil) error [e] that is returned. *)
Theorem StartScreenCap_returns (fps : Z) (rounds : list Round)
  (obs : list Obs) (r : option Z) :
  StartScreenCap fps rounds = (obs, SReturned r) ->
  exists pre rd post,
    rounds = pre ++ rd :: post /\ Forall continues pre /\
    ((go_select (rd_done rd) (rd_tick rd) (rd_pick rd) = Some SelDone /\ r = None) \/
     (exists e, go_select (rd_done rd) (rd_tick rd) (rd_pick rd) = Some SelTick /\
                rd_capture rd = CapErr e /\ r = Some e)).
Proof.
  unfold StartScreenCap.
  destruct (fps =? 0); [discriminate|].
  destruct (go_quot 1000000000 fps <=? 0); [discriminate|].
  apply sampler_loop_returns.
Qed.

Lemma StartScreenCap_returns_witness :
  StartScreenCap 30 [round_tick 1; round_capture_fails] = ([OCapture; OForward 1; OCapture], SReturned (Some 1)) /\
  exists pre rd post,
    [round_tick 1; round_capture_fails] = pre ++ rd :: post /\ Forall continues pre /\
    ((go_select (rd_done rd) (rd_tick rd) (rd_pick rd) = Some SelDone /\ Some 1 = None) \/
     (exists e, go_select (rd_done rd) (rd_tick rd) (rd_pick rd) = Some SelTick /\
                rd_capture rd = CapErr e /\ Some 1 = Some e)).
Proof.
  split.
  - reflexivity.
  - apply (StartScreenCap_returns 30 [round_tick 1; round_capture_fails]
             [OCapture; OForward 1; OCapture] (Some 1)).
    reflexivity.
Defined.

(** C4, refuted: in a pass where the context is already done and a tick is
    pending at the same time, Go's [select] may take the tick; the sampler
    then captures a bitmap after cancellation was signalled, and here the
    consumer still takes it from the channel. *)
Lemma StartScreenCap_tick_wins_race :
  rd_done round_race_tick = true /\ rd_tick round_race_tick = true /\
  StartScreenCap 30 [round_race_tick] = ([OCapture; OForward 7], SPending).
Proof. split; [reflexivity | split; reflexivity]. Qed.

(** C4 as the code has it: once cancellation is signalled, the sampler
    returns nil without capturing when no tick is pending or when the
    runtime picks the cancellation case; when a tick is pending too and the
    runtime picks it, the sampler captures a bitmap, and only if the
    consumer receives it is the bitmap handed over and the loop goes on to
    the next pass; otherwise the send blocks for good. *)
Theorem sampler_loop_cancel_race (rd : Round) (rest : list Round) :
  rd_done rd = true ->
  ((rd_tick rd = false \/ rd_pick rd = SelDone) ->
   sampler_loop (rd :: rest) = ([], SReturned None)) /\
  (forall img, rd_tick rd = true -> rd_pick rd = SelTick -> rd_capture rd = CapOk img ->
   sampler_loop (rd :: rest) =
     if rd_recv rd
     then (OCapture :: OForward img :: fst (sampler_loop rest), snd (sampler_loop rest))
     else ([OCapture], SBlocked)).
Proof.
  intros Hd. split.
  - intros Hc. simpl. rewrite Hd.
    destruct Hc as [Ht|Hp].
    + rewrite Ht. reflexivity.
    + rewrite Hp. destruct (rd_tick rd); reflexivity.
  - intros img Ht Hp Hc. simpl. rewrite Hd, Ht, Hp, Hc.
    destruct (rd_recv rd); [|reflexivity].
    destruct (sampler_loop rest). reflexivity.
Qed.

Lemma sampler_loop_cancel_race_witness :
  rd_done round_race_done = true /\
  sampler_loop [round_race_done] = ([], SReturned None) /\
  sampler_loop [round_race_tick_unreceived] = ([OCapture], SBlocked).
Proof.
  split; [reflexivity|]. split.
  - destruct (sampler_loop_cancel_race round_race_done [] eq_refl) as [H _].
    apply H. right. reflexivity.
  - destruct (sampler_loop_cancel_race round_race_tick_unreceived [] eq_refl) as [_ H].
    exact (H 9 eq_refl eq_refl eq_refl).
Defined.

End SamplerFacts.

(** ** Resources of the conversion *)
Module ConverterFacts.
Import Converter Scenarios.

(** On every path the intermediate frame and the scale context are
    released before [ImageRGBAtoAVFrame] returns. *)
Lemma ImageRGBAtoAVFrame_releases_src_and_sws (ce : ConvEnv) :
  ~ In SrcFrame (live (fst (ImageRGBAtoAVFrame ce)) []) /\
  ~ In SwsCtx (live (fst (ImageRGBAtoAVFrame ce)) []).
Proof.
  unfold ImageRGBAtoAVFrame.
  destruct (ce_src_alloc_buffer ce), (ce_make_writable ce), (ce_from_image ce),
    (ce_colored_alloc_buffer ce), (ce_create_sws ce), (ce_scale ce);
    simpl; intuition discriminate.
Qed.

(** C8, at the failing input: when building the scale context fails, the
    function returns nil and the error, yet [coloredFrame], allocated
    before, is neither released nor handed to the caller. *)
Theorem ImageRGBAtoAVFrame_sws_failure_leaks_frame :
  snd (ImageRGBAtoAVFrame conv_sws_fails) = ConvErr (ErrOther (-12)) /\
  owned_by_caller (snd (ImageRGBAtoAVFrame conv_sws_fails)) = [] /\
  live (fst (ImageRGBAtoAVFrame conv_sws_fails)) [] = [ColoredFrame].
Proof. split; [reflexivity | split; reflexivity]. Qed.

End ConverterFacts.

(** ** The shape of a recording run *)
Module RunFacts.
Import Encoder Recorder Scenarios.

(** The actions made by the main loop, with the time bases it uses. *)
Definition loop_action (encTB streamTB : Rational) (a : Action) : Prop :=
  match a with
  | AConvert | ASetPts _ | ASendFrame false | AAllocPacket | AReceivePacket => True
  | ARescaleTs s d => s = encTB /\ d = streamTB
  | AWriteFrame h => h = [(encTB, streamTB)]
  | _ => False
  end.

(** The actions of a run cut short during set-up. *)
Definition setup_action (a : Action) : bool :=
  match a with
  | AAllocOutputCtx | ANewEncoder | ANewStream | AOpenCodec | AParamsFromCodecCtx
  | ASetStreamTimeBase _ | AOpenIO | ASetPb | AWriteHeader
  | AFreeIO | AFreeCodecCtx | AFreeOutputCtx => true
  | _ => false
  end.

Definition tb_90k : Rational := NewRational 1 90000.

(** Everything [StartScreenRecording] does before its main loop, when every
    set-up call succeeds. *)
Definition setup_prefix : list Action :=
  [AAllocOutputCtx; ANewEncoder; ANewStream; AOpenCodec; AParamsFromCodecCtx;
   ASetStreamTimeBase tb_90k; AOpenIO; ASetPb; AWriteHeader; AStartSampler].

(** The deferred calls after the packet frees, once the header is written. *)
Definition deferred_tail : list Action :=
  [AStop; AWriteTrailer; AFreeIO; AFreeCodecCtx; AFreeOutputCtx].

(** The stream time base the muxer sees after [WriteHeader]. *)
Definition stream_tb (env : RecEnv) : Rational :=
  match re_header_tb env with Some tb => tb | None => tb_90k end.

Lemma NewH264EncoderCodec_time_base (ee : EncEnv) (width height fps bitrate : Z)
  (c : CodecContext) :
  NewH264EncoderCodec ee width height fps bitrate = inr c ->
  cc_time_base c = tb_90k.
Proof.
  unfold NewH264EncoderCodec.
  destruct (ee_find_encoder ee); unfold negb; [|discriminate].
  destruct (ee_alloc_ctx ee); [|discriminate].
  intros H. injection H as <-. reflexivity.
Qed.

Lemma drain_actions (encTB streamTB : Rational) (steps : list DrainStep) :
  Forall (loop_action encTB streamTB) (fst (drain encTB streamTB steps)).
Proof.
  induction steps as [|s steps IH]; simpl; [constructor|].
  destruct s as [[w|]|e]; simpl.
  - repeat constructor.
  - destruct (drain encTB streamTB steps) as [t' fin]. simpl in *.
    repeat constructor; assumption.
  - repeat constructor.
Qed.

Lemma main_loop_actions (encTB streamTB : Rational) (inc : Z) (evs : list Event) :
  forall fn, Forall (loop_action encTB streamTB) (fst (fst (main_loop encTB streamTB inc fn evs))).
Proof.
  induction evs as [|ev evs IH]; intros fn; simpl; [constructor|].
  destruct ev as [|r]; simpl; [constructor|].
  destruct (ir_conv r); simpl; [repeat constructor|].
  destruct (ir_send r); simpl; [repeat constructor|].
  destruct (ir_alloc_packet r); simpl; [|repeat constructor].
  pose proof (drain_actions encTB streamTB (ir_drain r)) as Hd.
  destruct (drain encTB streamTB (ir_drain r)) as [td fin]. simpl in Hd.
  destruct fin.
  - specialize (IH (int64_wrap (fn + 1))).
    destruct (main_loop encTB streamTB inc (int64_wrap (fn + 1)) evs) as [[tr n] fin'].
    simpl in *.
    repeat constructor; apply Forall_app; split; assumption.
  - simpl. repeat constructor; assumption.
  - simpl. repeat constructor; assumption.
Qed.

(** Every run is cut short during set-up, or panics on [fps = 0] right
    after starting the sampler, or runs the main loop after the full
    set-up and, if the loop returns, the deferred calls. *)
Lemma run_cases (width height fps : Z) (env : RecEnv) :
  let (tr, fin) := StartScreenRecording width height fps env in
  (fin = Returned /\ forallb setup_action tr = true /\
   (forall tb, In (ASetStreamTimeBase tb) tr -> tb = tb_90k) /\
   (In AWriteHeader tr -> re_header env <> None)) \/
  (fps = 0 /\ fin = Panicked /\ tr = setup_prefix) \/
  (exists tl n fin', fps <> 0 /\ re_header env = None /\
     main_loop tb_90k (stream_tb env) (go_quot (90 * 1000) fps) 0 (re_events env) = (tl, n, fin') /\
     ((fin' = Returned /\ fin = Returned /\
       tr = setup_prefix ++ tl ++ repeat AFreePacket n ++ deferred_tail) \/
      (fin' <> Returned /\ fin = fin' /\ tr = setup_prefix ++ tl))).
Proof.
  unfold StartScreenRecording.
  assert (Hs : forall l, forallb setup_action l = true ->
            (forall tb, In (ASetStreamTimeBase tb) l -> tb = tb_90k) ->
            (In AWriteHeader l -> re_header env <> None) ->
            (Returned = Returned /\ forallb setup_action l = true /\
             (forall tb, In (ASetStreamTimeBase tb) l -> tb = tb_90k) /\
             (In AWriteHeader l -> re_header env <> None)))
    by (intros; repeat split; auto).
  destruct (re_alloc_output env).
  2:{ left. apply Hs; [reflexivity | simpl; intuition discriminate | simpl; intuition discriminate]. }
  destruct (NewH264EncoderCodec (re_enc env) width height fps (re_bit_rate env))
    as [e|encCtx] eqn:Enc.
  { left. apply Hs; [reflexivity | simpl; intuition discriminate | simpl; intuition discriminate]. }
  apply NewH264EncoderCodec_time_base in Enc. rewrite Enc.
  destruct (re_new_stream env).
  2:{ left. apply Hs; [reflexivity | simpl; intuition discriminate | simpl; intuition discriminate]. }
  destruct (re_open env).
  { left. apply Hs; [reflexivity | simpl; intuition discriminate | simpl; intuition discriminate]. }
  destruct (re_params env).
  { left. apply Hs; [reflexivity | simpl; intuition discriminate | simpl; intuition discriminate]. }
  destruct (re_open_io env).
  { left. apply Hs; [reflexivity | simpl; intros tb H; intuition congruence
                    | simpl; intuition discriminate]. }
  destruct (re_header env) eqn:Eh.
  { left. apply Hs; [reflexivity | simpl; intros tb H; intuition congruence
                    | intros _; discriminate]. }
  destruct (fps =? 0) eqn:Ef.
  { right; left. apply Z.eqb_eq in Ef. split; [exact Ef | split; reflexivity]. }
  apply Z.eqb_neq in Ef.
  cbv zeta.
  fold tb_90k. fold (stream_tb env).
  destruct (main_loop tb_90k (stream_tb env) _ 0 (re_events env)) as [[tl n] fin'] eqn:Em.
  destruct fin'; right; right;
    (exists tl, n; eexists; split; [exact Ef|]; split; [reflexivity|]; split; [reflexivity|]).
  - left. split; [reflexivity | split; reflexivity].
  - right. split; [discriminate | split; reflexivity].
  - right. split; [discriminate | split; reflexivity].
Qed.

Lemma loop_trace_not_in (encTB streamTB : Rational) (a : Action) (tl : list Action) :
  Forall (loop_action encTB streamTB) tl -> ~ loop_action encTB streamTB a -> ~ In a tl.
Proof. intros Hf Ha Hin. rewrite Forall_forall in Hf. exact (Ha (Hf a Hin)). Qed.

Lemma repeat_not_in (a : Action) (n : nat) :
  a <> AFreePacket -> ~ In a (repeat AFreePacket n).
Proof. intros Ha Hin. apply repeat_spec in Hin. exact (Ha Hin). Qed.

Lemma setup_trace_not_in (a : Action) (tr : list Action) :
  forallb setup_action tr = true -> setup_action a = false -> ~ In a tr.
Proof.
  intros Hf Ha Hin. rewrite forallb_forall in Hf.
  rewrite (Hf a Hin) in Ha. discriminate.
Qed.

Ltac trace_not_in :=
  let Hin := fresh "Hin" in
  intros Hin; unfold setup_prefix, deferred_tail in Hin; simpl in Hin;
  repeat (rewrite in_app_iff in Hin; simpl in Hin);
  intuition discriminate.

End RunFacts.

(** ** Flush, rescale and container lifecycle *)
Module PipelineFacts.
Import Encoder Recorder Scenarios RunFacts.

(** C2, refuted: on cancellation the loop returns at once; the trailer is
    written without any end-of-stream [SendFrame(nil)] and without a
    further [ReceivePacket]. *)
Lemma StartScreenRecording_cancel_no_flush :
  StartScreenRecording 1920 1080 30 (env_with [EvImage img_one_packet; EvDone]) =
  (setup_prefix ++
   [AConvert; ASetPts 0; ASendFrame false; AAllocPacket; AReceivePacket;
    ARescaleTs tb_90k tb_90k; AWriteFrame [(tb_90k, tb_90k)]; AReceivePacket;
    AFreePacket] ++ deferred_tail, Returned) /\
  ~ In (ASendFrame true)
    (fst (StartScreenRecording 1920 1080 30 (env_with [EvImage img_one_packet; EvDone]))).
Proof. split; [reflexivity | simpl; intuition discriminate]. Qed.

(** C2 as the code has it: no run ever sends the end-of-stream signal to
    the encoder, and a run whose loop returns (on cancellation or on a
    fatal error) goes from the loop's last action straight to the deferred
    packet frees, [stop] and the trailer write. *)
Theorem StartScreenRecording_no_flush (width height fps : Z) (env : RecEnv) :
  let (tr, fin) := StartScreenRecording width height fps env in
  ~ In (ASendFrame true) tr /\
  (fin = Returned -> In AStartSampler tr ->
   exists tl n, Forall (loop_action tb_90k (stream_tb env)) tl /\
     tr = setup_prefix ++ tl ++ repeat AFreePacket n ++ deferred_tail).
Proof.
  pose proof (run_cases width height fps env) as Hc.
  destruct (StartScreenRecording width height fps env) as [tr fin].
  destruct Hc as [(Hf & Hs & _ & _) | [(_ & Hf & ->) | (tl & n & fin' & _ & _ & Em & Hb)]].
  - split.
    + apply setup_trace_not_in; [exact Hs | reflexivity].
    + intros _ Hin. exfalso. exact (setup_trace_not_in AStartSampler _ Hs eq_refl Hin).
  - split; [trace_not_in | intros Hr; rewrite Hf in Hr; discriminate].
  - pose proof (main_loop_actions tb_90k (stream_tb env) (go_quot (90 * 1000) fps)
                  (re_events env) 0) as Hl.
    rewrite Em in Hl. simpl in Hl.
    assert (Hn : ~ In (ASendFrame true) tl) by (apply (loop_trace_not_in _ _ _ _ Hl); simpl; auto).
    assert (Hr : ~ In (ASendFrame true) (repeat AFreePacket n)) by (apply repeat_not_in; discriminate).
    destruct Hb as [(_ & -> & ->) | (Hne & -> & ->)].
    + split; [trace_not_in|]. intros _ _. exists tl, n. split; [exact Hl | reflexivity].
    + split; [trace_not_in|]. intros Hret. exfalso. exact (Hne Hret).
Qed.

(** C5, refuted: the code gives the stream the encoder's own time base
    before the header; with a muxer that keeps it (as the MP4 muxer does for
    1/90000), every packet is rescaled from 1/90000 to 1/90000. *)
Lemma StartScreenRecording_stream_tb_equals_encoder_tb :
  In (ASetStreamTimeBase tb_90k) (fst (StartScreenRecording 1920 1080 30 env_three_frames)) /\
  In (AWriteFrame [(tb_90k, tb_90k)]) (fst (StartScreenRecording 1920 1080 30 env_three_frames)).
Proof. split; simpl; intuition. Qed.

(** C5 as the code has it: every packet handed to [WriteFrame] has been
    rescaled exactly once, from the encoder time base 1/90000 to the stream
    time base read after the header; the stream time base the code sets
    before the header is the encoder's, 1/90000. *)
Theorem StartScreenRecording_rescale_before_write (width height fps : Z) (env : RecEnv) :
  let tr := fst (StartScreenRecording width height fps env) in
  (forall h, In (AWriteFrame h) tr -> h = [(tb_90k, stream_tb env)]) /\
  (forall tb, In (ASetStreamTimeBase tb) tr -> tb = tb_90k).
Proof.
  pose proof (run_cases width height fps env) as Hc.
  destruct (StartScreenRecording width height fps env) as [tr fin]. simpl fst.
  destruct Hc as [(Hf & Hs & Htb & _) | [(_ & Hf & ->) | (tl & n & fin' & _ & _ & Em & Hb)]].
  - split; [|exact Htb].
    intros h Hin. exfalso. exact (setup_trace_not_in (AWriteFrame h) _ Hs eq_refl Hin).
  - split; [intros h; trace_not_in|].
    intros tb Hin. unfold setup_prefix in Hin. simpl in Hin. intuition congruence.
  - pose proof (main_loop_actions tb_90k (stream_tb env) (go_quot (90 * 1000) fps)
                  (re_events env) 0) as Hl.
    rewrite Em in Hl. simpl in Hl. rewrite Forall_forall in Hl.
    assert (Hw : forall h, In (AWriteFrame h) tl -> h = [(tb_90k, stream_tb env)])
      by (intros h Hin; exact (Hl _ Hin)).
    assert (Ht : forall tb, ~ In (ASetStreamTimeBase tb) tl)
      by (intros tb Hin; exact (Hl _ Hin)).
    assert (Hrw : forall h, ~ In (AWriteFrame h) (repeat AFreePacket n))
      by (intros h; apply repeat_not_in; discriminate).
    assert (Hrt : forall tb, ~ In (ASetStreamTimeBase tb) (repeat AFreePacket n))
      by (intros tb; apply repeat_not_in; discriminate).
    destruct Hb as [(_ & _ & ->) | (_ & _ & ->)]; split.
    + intros h Hin. unfold setup_prefix, deferred_tail in Hin.
      repeat (rewrite in_app_iff in Hin; simpl in Hin).
      destruct Hin as [Hin|[Hin|[Hin|Hin]]];
        [intuition discriminate | exact (Hw h Hin) | exfalso; exact (Hrw h Hin)
        | intuition discriminate].
    + intros tb Hin. unfold setup_prefix, deferred_tail in Hin.
      repeat (rewrite in_app_iff in Hin; simpl in Hin).
      destruct Hin as [Hin|[Hin|[Hin|Hin]]];
        [intuition congruence | exfalso; exact (Ht tb Hin) | exfalso; exact (Hrt tb Hin)
        | intuition discriminate].
    + intros h Hin. unfold setup_prefix in Hin.
      repeat (rewrite in_app_iff in Hin; simpl in Hin).
      destruct Hin as [Hin|Hin]; [intuition discriminate | exact (Hw h Hin)].
    + intros tb Hin. unfold setup_prefix in Hin.
      repeat (rewrite in_app_iff in Hin; simpl in Hin).
      destruct Hin as [Hin|Hin]; [intuition congruence | exfalso; exact (Ht tb Hin)].
Qed.

(** C6, refuted: when [WriteHeader] fails the function returns before the
    trailer closure is deferred; the I/O context is released and no trailer
    is ever written. *)
Lemma StartScreenRecording_header_failure_no_trailer :
  StartScreenRecording 1920 1080 30 env_header_fails =
  ([AAllocOutputCtx; ANewEncoder; ANewStream; AOpenCodec; AParamsFromCodecCtx;
    ASetStreamTimeBase tb_90k; AOpenIO; ASetPb; AWriteHeader;
    AFreeIO; AFreeCodecCtx; AFreeOutputCtx], Returned) /\
  ~ In AWriteTrailer (fst (StartScreenRecording 1920 1080 30 env_header_fails)).
Proof. split; [reflexivity | simpl; intuition discriminate]. Qed.

(** C6 as the code has it: in a run that returns after a successful header
    write, the header is written once, after the stream parameters and time
    base are taken from the encoder and the I/O context is opened, and
    before every packet write; the trailer is written once, after the last
    packet write; the I/O context is released after the trailer. When the
    header write fails, the run returns without a trailer. *)
Theorem StartScreenRecording_container_lifecycle (width height fps : Z) (env : RecEnv)
  (tr : list Action) :
  StartScreenRecording width height fps env = (tr, Returned) ->
  (re_header env = None -> In AWriteHeader tr ->
   exists l1 l2 l3,
     tr = l1 ++ AWriteHeader :: l2 ++ AWriteTrailer :: l3 /\
     In AParamsFromCodecCtx l1 /\ In (ASetStreamTimeBase tb_90k) l1 /\ In AOpenIO l1 /\
     ~ In AWriteHeader (l1 ++ l2 ++ l3) /\ ~ In AWriteTrailer (l1 ++ l2 ++ l3) /\
     (forall h, ~ In (AWriteFrame h) (l1 ++ l3)) /\
     ~ In AFreeIO (l1 ++ l2) /\ In AFreeIO l3) /\
  (re_header env <> None -> ~ In AWriteTrailer tr).
Proof.
  intros Hrun.
  pose proof (run_cases width height fps env) as Hc. rewrite Hrun in Hc.
  destruct Hc as [(_ & Hs & _ & Hh) | [(_ & Hf & _) | (tl & n & fin' & _ & Eh & Em & Hb)]].
  - split.
    + intros Hnone Hin. exfalso. exact (Hh Hin Hnone).
    + intros _. apply setup_trace_not_in; [exact Hs | reflexivity].
  - discriminate.
  - pose proof (main_loop_actions tb_90k (stream_tb env) (go_quot (90 * 1000) fps)
                  (re_events env) 0) as Hl.
    rewrite Em in Hl. simpl in Hl.
    destruct Hb as [(_ & _ & Htr) | (Hne & Hf & _)]; [|exfalso; exact (Hne (eq_sym Hf))].
    split; [|intros Hsome; exfalso; exact (Hsome Eh)].
    intros _ _.
    assert (Hh : ~ In AWriteHeader tl) by (apply (loop_trace_not_in _ _ _ _ Hl); simpl; auto).
    assert (Ht : ~ In AWriteTrailer tl) by (apply (loop_trace_not_in _ _ _ _ Hl); simpl; auto).
    assert (Hi : ~ In AFreeIO tl) by (apply (loop_trace_not_in _ _ _ _ Hl); simpl; auto).
    assert (Hrh : ~ In AWriteHeader (repeat AFreePacket n)) by (apply repeat_not_in; discriminate).
    assert (Hrt : ~ In AWriteTrailer (repeat AFreePacket n)) by (apply repeat_not_in; discriminate).
    assert (Hri : ~ In AFreeIO (repeat AFreePacket n)) by (apply repeat_not_in; discriminate).
    exists [AAllocOutputCtx; ANewEncoder; ANewStream; AOpenCodec; AParamsFromCodecCtx;
            ASetStreamTimeBase tb_90k; AOpenIO; ASetPb],
           (AStartSampler :: tl ++ repeat AFreePacket n ++ [AStop]),
           [AFreeIO; AFreeCodecCtx; AFreeOutputCtx].
    split.
    { rewrite Htr. unfold setup_prefix, deferred_tail. simpl.
      rewrite <- !app_assoc. reflexivity. }
    split; [simpl; tauto|]. split; [simpl; tauto|]. split; [simpl; tauto|].
    split; [trace_not_in|]. split; [trace_not_in|].
    split; [intros h; trace_not_in|].
    split; [trace_not_in | simpl; tauto].
Qed.

Lemma StartScreenRecording_container_lifecycle_witness :
  re_header env_three_frames = None /\
  In AWriteHeader (fst (StartScreenRecording 1920 1080 30 env_three_frames)) /\
  exists l1 l2 l3,
    fst (StartScreenRecording 1920 1080 30 env_three_frames) =
      l1 ++ AWriteHeader :: l2 ++ AWriteTrailer :: l3 /\ In AFreeIO l3 /\
    ~ In AFreeIO (l1 ++ l2).
Proof.
  split; [reflexivity|]. split; [simpl; tauto|].
  destruct (StartScreenRecording_container_lifecycle 1920 1080 30 env_three_frames
              (fst (StartScreenRecording 1920 1080 30 env_three_frames)) eq_refl) as [H _].
  destruct (H eq_refl) as (l1 & l2 & l3 & Htr & _ & _ & _ & _ & _ & _ & Hio & Hio3).
  { simpl; tauto. }
  exists l1, l2, l3. split; [exact Htr|]. split; [exact Hio3 | exact Hio].
Defined.

(** ** The drain loop *)

Lemma drain_packets_then_error (encTB streamTB : Rational) (k : nat)
  (err : AvError) (more : list DrainStep) :
  drain encTB streamTB (repeat (DrPacket None) k ++ DrErr err :: more) =
  (concat (repeat [AReceivePacket; ARescaleTs encTB streamTB; AWriteFrame [(encTB, streamTB)]] k)
     ++ [AReceivePacket],
   if is_eof_or_eagain err then DrainBreak else DrainFatal).
Proof.
  induction k as [|k IH]; [reflexivity|].
  simpl. rewrite IH. reflexivity.
Qed.

(** C3, refuted: end of stream is not terminal for the pipeline; after
    [ReceivePacket] reports it, the loop goes on and submits the next bitmap
    to the same encoder (here the submission fails and the run returns). *)
Lemma StartScreenRecording_eof_then_submit :
  StartScreenRecording 1920 1080 30 env_eof_then_frame =
  (setup_prefix ++
   [AConvert; ASetPts 0; ASendFrame false; AAllocPacket; AReceivePacket;
    AConvert; ASetPts 3000; ASendFrame false; AFreePacket] ++ deferred_tail, Returned).
Proof. reflexivity. Qed.

(** C3 as the code has it: after a submission, the drain writes every
    packet it receives; the first receive error ends it. End of stream and
    "no packet yet" are handled alike: the drain stops without error and
    the loop goes on with the next event, counting the frame. Any other
    error makes the loop return (the deferred trailer write follows). *)
Theorem main_loop_receive_outcome (encTB streamTB : Rational) (inc fn : Z)
  (r : ImageRound) (rest : list Event) (k : nat) (err : AvError) (more : list DrainStep) :
  ir_conv r = None -> ir_send r = None -> ir_alloc_packet r = true ->
  ir_drain r = repeat (DrPacket None) k ++ DrErr err :: more ->
  main_loop encTB streamTB inc fn (EvImage r :: rest) =
  (let pre :=
     [AConvert; ASetPts (int64_wrap (fn * inc)); ASendFrame false; AAllocPacket] ++
     concat (repeat [AReceivePacket; ARescaleTs encTB streamTB; AWriteFrame [(encTB, streamTB)]] k)
     ++ [AReceivePacket] in
   if is_eof_or_eagain err then
     let '(tr, n, fin) := main_loop encTB streamTB inc (int64_wrap (fn + 1)) rest in
     (pre ++ tr, S n, fin)
   else (pre, 1%nat, Returned)).
Proof.
  intros Hc Hs Ha Hd.
  simpl main_loop. rewrite Hc, Hs, Ha, Hd, drain_packets_then_error.
  cbv zeta.
  destruct (is_eof_or_eagain err).
  - destruct (main_loop encTB streamTB inc (int64_wrap (fn + 1)) rest) as [[tr n] fin].
    simpl. rewrite <- !app_assoc. reflexivity.
  - simpl. reflexivity.
Qed.

Lemma main_loop_receive_outcome_witness :
  ir_conv img_eof = None /\ ir_send img_eof = None /\ ir_alloc_packet img_eof = true /\
  ir_drain img_eof = repeat (DrPacket None) 0 ++ DrErr ErrEof :: [] /\
  main_loop tb_90k tb_90k 3000 0 [EvImage img_eof; EvDone] =
  ([AConvert; ASetPts 0; ASendFrame false; AAllocPacket; AReceivePacket], 1%nat, Returned).
Proof.
  split; [reflexivity|]. split; [reflexivity|]. split; [reflexivity|].
  split; [reflexivity|].
  exact (main_loop_receive_outcome tb_90k tb_90k 3000 0 img_eof [EvDone] 0 ErrEof []
           eq_refl eq_refl eq_refl eq_refl).
Defined.

End PipelineFacts.

(** * Further properties of the code *)

(** ** The sampler *)
Module SamplerExtra.
Import Sampler Scenarios.

Lemma sampler_loop_never_panics (rounds : list Round) :
  snd (sampler_loop rounds) <> SPanicked.
Proof.
  induction rounds as [|rd rounds IH]; simpl; [discriminate|].
  destruct (go_select (rd_done rd) (rd_tick rd) (rd_pick rd)) as [[|]|]; simpl;
    try discriminate; [|exact IH].
  destruct (rd_capture rd); simpl; [|discriminate].
  destruct (rd_recv rd); [|discriminate].
  destruct (sampler_loop rounds) as [o fin]. exact IH.
Qed.

(** [StartScreenCap] panics exactly when the frame rate is not in
    1..10^9: a zero rate divides by zero, and a negative rate or one above
    10^9 gives a non-positive ticker interval. Otherwise it never panics. *)
Theorem StartScreenCap_panics_iff (fps : Z) (rounds : list Round) :
  snd (StartScreenCap fps rounds) = SPanicked <-> fps <= 0 \/ 1000000000 < fps.
Proof.
  unfold StartScreenCap, go_quot.
  destruct (Z.eqb_spec fps 0) as [->|Hnz]; [split; [lia | reflexivity]|].
  destruct (Z.leb_spec (Z.quot 1000000000 fps) 0) as [Hq|Hq].
  - split; [intros _ | reflexivity].
    destruct (Z.lt_ge_cases fps 0); [lia|].
    right. destruct (Z.le_gt_cases fps 1000000000) as [Hle|]; [|lia].
    rewrite Z.quot_div_nonneg in Hq by lia.
    assert (0 < 1000000000 / fps) by (apply Z.div_str_pos; lia). lia.
  - split; [intros H; exfalso; exact (sampler_loop_never_panics rounds H)|].
    intros [Hneg|Hbig].
    + exfalso. assert (Hlt : fps < 0) by lia.
      replace fps with (- (- fps)) in Hq by lia.
      rewrite Z.quot_opp_r in Hq by lia.
      assert (0 <= Z.quot 1000000000 (- fps)) by (apply Z.quot_pos; lia). lia.
    + exfalso. rewrite Z.quot_small in Hq by lia. lia.
Qed.

End SamplerExtra.

(** ** The conversion *)
Module ConverterExtra.
Import Converter.

(** On success the returned YUV frame is the only resource still
    allocated; a failure before [coloredFrame] is allocated leaves nothing
    allocated and returns the error. *)
Theorem ImageRGBAtoAVFrame_ownership (ce : ConvEnv) :
  (snd (ImageRGBAtoAVFrame ce) = ConvFrame ColoredFrame ->
   live (fst (ImageRGBAtoAVFrame ce)) [] = [ColoredFrame]) /\
  (ce_src_alloc_buffer ce <> None \/ ce_make_writable ce <> None \/ ce_from_image ce <> None ->
   live (fst (ImageRGBAtoAVFrame ce)) [] = [] /\
   exists e, snd (ImageRGBAtoAVFrame ce) = ConvErr e).
Proof.
  unfold ImageRGBAtoAVFrame.
  destruct (ce_src_alloc_buffer ce), (ce_make_writable ce), (ce_from_image ce),
    (ce_colored_alloc_buffer ce), (ce_create_sws ce), (ce_scale ce);
    simpl; split; intros H; try discriminate;
    try (split; [reflexivity | eexists; reflexivity]);
    try reflexivity; intuition congruence.
Qed.

Lemma ImageRGBAtoAVFrame_ownership_witness :
  snd (ImageRGBAtoAVFrame Scenarios.conv_all_ok) = ConvFrame ColoredFrame /\
  live (fst (ImageRGBAtoAVFrame Scenarios.conv_all_ok)) [] = [ColoredFrame].
Proof.
  split; [reflexivity|].
  apply (ImageRGBAtoAVFrame_ownership Scenarios.conv_all_ok).
  reflexivity.
Defined.

End ConverterExtra.


(** ** The orchestrator *)
Module RecorderExtra.
Import Encoder Recorder Scenarios RunFacts PtsFacts TraceCount Main.

Lemma stamped_pts_of_run (width height fps : Z) (env : RecEnv) :
  Z.of_nat (length (re_events env)) * 90000 < 2 ^ 63 ->
  let ps := stamped_pts (fst (StartScreenRecording width height fps env)) in
  ps = map (fun n => Z.of_nat n * go_quot (90 * 1000) fps) (seq 0 (length ps)).
Proof.
  intros Hb.
  pose proof (run_cases width height fps env) as Hc.
  destruct (StartScreenRecording width height fps env) as [tr fin]. cbv zeta. simpl fst.
  destruct Hc as [(_ & Hs & _ & _) | [(_ & _ & ->) | (tl & n & fin' & Hf & _ & Em & Hr)]].
  - assert (Hp : stamped_pts tr = []).
    { induction tr as [|a tr IH]; [reflexivity|].
      simpl in Hs. apply andb_prop in Hs as [Ha Hs].
      destruct a; try discriminate; simpl; exact (IH Hs). }
    rewrite Hp. reflexivity.
  - reflexivity.
  - assert (Hinc : Z.abs (go_quot (90 * 1000) fps) <= 90000)
      by (apply (Z.le_trans _ _ _ (go_quot_abs_le _ _ Hf)); reflexivity).
    apply main_loop_pts_from_zero in Em; [|exact Hinc|exact Hb].
    destruct Hr as [(_ & _ & ->) | (_ & _ & ->)];
      unfold setup_prefix, deferred_tail; simpl stamped_pts;
      rewrite ?stamped_pts_app, ?stamped_pts_repeat; simpl stamped_pts;
      rewrite ?app_nil_r; exact Em.
Qed.

Lemma map_seq_sorted (inc : Z) (m : nat) :
  0 < inc -> forall k, Sorted Z.lt (map (fun n => Z.of_nat n * inc) (seq k m)).
Proof.
  intros Hinc. induction m as [|m IH]; intros k; simpl; [constructor|].
  constructor; [apply IH|].
  destruct m; cbn [map seq]; constructor. rewrite Nat2Z.inj_succ. nia.
Qed.

(** With a frame rate in 1..90000 the pts increment is at least 1, so the
    frames submitted to the encoder carry strictly increasing timestamps. *)
Theorem StartScreenRecording_pts_increasing (width height fps : Z) (env : RecEnv) :
  0 < fps <= 90000 ->
  Z.of_nat (length (re_events env)) * 90000 < 2 ^ 63 ->
  Sorted Z.lt (stamped_pts (fst (StartScreenRecording width height fps env))).
Proof.
  intros Hf Hb.
  pose proof (stamped_pts_of_run width height fps env Hb) as H. cbv zeta in H.
  rewrite H. apply map_seq_sorted.
  unfold go_quot. rewrite Z.quot_div_nonneg by lia.
  apply Z.div_str_pos. lia.
Qed.

Lemma StartScreenRecording_pts_increasing_witness :
  Sorted Z.lt (stamped_pts (fst (StartScreenRecording 1920 1080 30 env_three_frames))).
Proof. apply StartScreenRecording_pts_increasing; simpl; lia. Defined.

(** With a frame rate above 90000 the integer division gives a pts
    increment of 0: every submitted frame is stamped 0. *)
Theorem StartScreenRecording_pts_zero_above_90k (width height fps : Z) (env : RecEnv) :
  90000 < fps ->
  Z.of_nat (length (re_events env)) * 90000 < 2 ^ 63 ->
  Forall (fun p => p = 0) (stamped_pts (fst (StartScreenRecording width height fps env))).
Proof.
  intros Hf Hb.
  pose proof (stamped_pts_of_run width height fps env Hb) as H. cbv zeta in H.
  rewrite H. unfold go_quot. rewrite Z.quot_small by lia.
  apply Forall_forall. intros x Hx. apply in_map_iff in Hx as (n & <- & _). lia.
Qed.

Lemma StartScreenRecording_pts_zero_above_90k_witness :
  stamped_pts (fst (StartScreenRecording 1920 1080 100000 env_three_frames)) = [0; 0; 0] /\
  Forall (fun p => p = 0) (stamped_pts (fst (StartScreenRecording 1920 1080 100000 env_three_frames))).
Proof.
  split; [reflexivity|].
  apply StartScreenRecording_pts_zero_above_90k; simpl; lia.
Defined.

Lemma main_loop_never_panics (encTB streamTB : Rational) (inc : Z) (evs : list Event) :
  forall fn, snd (main_loop encTB streamTB inc fn evs) <> Panicked.
Proof.
  induction evs as [|ev evs IH]; intros fn; simpl; [discriminate|].
  destruct ev as [|r]; simpl; [discriminate|].
  destruct (ir_conv r); simpl; [discriminate|].
  destruct (ir_send r); simpl; [discriminate|].
  destruct (ir_alloc_packet r); simpl; [|discriminate].
  destruct (drain encTB streamTB (ir_drain r)) as [td []]; simpl; try discriminate.
  specialize (IH (int64_wrap (fn + 1))).
  destruct (main_loop encTB streamTB inc (int64_wrap (fn + 1)) evs) as [[tr n] fin].
  exact IH.
Qed.


(** [main] passes 30 frames per second, so neither of the divisions by
    [fps] can panic: the recorder's run never ends in the panic of line
    148, the sampler it starts never panics (at [time.Second / 30] nor in
    [time.NewTicker]), and the frames are stamped 0, 3000, 6000, ... *)
Theorem main_no_division_panic (dx dy : Z) (env : RecEnv) (rounds : list Sampler.Round) :
  Z.of_nat (length (re_events env)) * 90000 < 2 ^ 63 ->
  snd (main dx dy env) <> Panicked /\
  snd (main_sampler rounds) <> Sampler.SPanicked /\
  (let ps := stamped_pts (fst (main dx dy env)) in
   ps = map (fun n => Z.of_nat n * 3000) (seq 0 (length ps))).
Proof.
  intros Hb. unfold main, main_sampler.
  split; [|split].
  - pose proof (run_cases dx dy 30 env) as Hc.
    destruct (StartScreenRecording dx dy 30 env) as [tr fin]. simpl.
    destruct Hc as [(-> & _) | [(Hz & _) | (tl & n & fin' & _ & _ & Em & Hr)]];
      [discriminate | discriminate|].
    pose proof (main_loop_never_panics tb_90k (stream_tb env) (go_quot (90 * 1000) 30)
                  (re_events env) 0) as Hp.
    rewrite Em in Hp. simpl in Hp.
    destruct Hr as [(_ & -> & _) | (_ & -> & _)]; [discriminate | exact Hp].
  - unfold Sampler.StartScreenCap. simpl. apply SamplerExtra.sampler_loop_never_panics.
  - exact (stamped_pts_of_run dx dy 30 env Hb).
Qed.

Lemma main_no_division_panic_witness :
  snd (main 1920 1080 env_three_frames) <> Panicked /\
  stamped_pts (fst (main 1920 1080 env_three_frames)) = [0; 3000; 6000].
Proof.
  split; [|reflexivity].
  destruct (main_no_division_panic 1920 1080 env_three_frames [] ltac:(simpl; lia)) as [H _].
  exact H.
Defined.

End RecorderExtra.

(** ** Release of resources by the deferred calls *)
Module ReleaseExtra.
Import Encoder Recorder Scenarios RunFacts TraceCount.

Lemma filter_loop_trace (p : Action -> bool) (encTB streamTB : Rational) (tl : list Action) :
  (forall a, loop_action encTB streamTB a -> p a = false) ->
  Forall (loop_action encTB streamTB) tl -> filter p tl = [].
Proof.
  intros Hp Hf. induction Hf as [|a tl Ha Hf IH]; [reflexivity|].
  simpl. rewrite (Hp a Ha). exact IH.
Qed.

Lemma filter_repeat_packet (p : Action -> bool) (n : nat) :
  p AFreePacket = false -> filter p (repeat AFreePacket n) = [].
Proof. intros Hp. induction n as [|n IH]; simpl; [reflexivity|]. rewrite Hp. exact IH. Qed.

Ltac early_case Hr := injection Hr as <-; split; [reflexivity | split; reflexivity].

(** In every run that returns, each set-up resource is released exactly
    once if it was acquired and never otherwise: the output context when
    it was allocated, the codec context when the encoder was built, the
    I/O context when the output file was opened. *)
Theorem StartScreenRecording_releases_setup_resources (width height fps : Z)
  (env : RecEnv) (tr : list Action) :
  StartScreenRecording width height fps env = (tr, Returned) ->
  count_where is_free_output tr = (if re_alloc_output env then 1 else 0)%nat /\
  count_where is_free_codec tr =
    (if re_alloc_output env && encoder_created (re_enc env) width height fps (re_bit_rate env)
     then 1 else 0)%nat /\
  count_where is_free_io tr =
    (if re_alloc_output env && encoder_created (re_enc env) width height fps (re_bit_rate env)
        && re_new_stream env && succeeded (re_open env) && succeeded (re_params env)
        && succeeded (re_open_io env)
     then 1 else 0)%nat.
Proof.
  intros Hr. unfold StartScreenRecording in Hr. unfold encoder_created.
  destruct (re_alloc_output env); [|early_case Hr].
  destruct (NewH264EncoderCodec (re_enc env) width height fps (re_bit_rate env))
    as [e|encCtx]; [early_case Hr|].
  destruct (re_new_stream env); [|early_case Hr].
  destruct (re_open env); [early_case Hr|].
  destruct (re_params env); [early_case Hr|].
  destruct (re_open_io env); [early_case Hr|].
  destruct (re_header env); [early_case Hr|].
  destruct (fps =? 0); [discriminate|].
  cbv zeta in Hr.
  pose proof (main_loop_actions (cc_time_base encCtx)
               (match re_header_tb env with Some tb => tb | None => cc_time_base encCtx end)
               (go_quot (90 * 1000) fps) (re_events env) 0) as Hl.
  destruct (main_loop _ _ _ 0 (re_events env)) as [[tl n] []]; try discriminate.
  injection Hr as <-. simpl in Hl. unfold count_where.
  simpl filter. rewrite !filter_app.
  rewrite (filter_loop_trace is_free_output _ _ tl) by (first [exact Hl | intros [] ?; simpl in *; auto; contradiction]).
  rewrite (filter_loop_trace is_free_codec _ _ tl) by (first [exact Hl | intros [] ?; simpl in *; auto; contradiction]).
  rewrite (filter_loop_trace is_free_io _ _ tl) by (first [exact Hl | intros [] ?; simpl in *; auto; contradiction]).
  rewrite !filter_repeat_packet by reflexivity.
  split; [reflexivity | split; reflexivity].
Qed.

Lemma StartScreenRecording_releases_setup_resources_witness :
  count_where is_free_io (fst (StartScreenRecording 1920 1080 30 env_three_frames)) = 1%nat /\
  count_where is_free_io (fst (StartScreenRecording 1920 1080 30 env_io_fails)) = 0%nat.
Proof.
  split.
  - destruct (StartScreenRecording_releases_setup_resources 1920 1080 30 env_three_frames
                (fst (StartScreenRecording 1920 1080 30 env_three_frames)) eq_refl)
      as (_ & _ & H). exact H.
  - destruct (StartScreenRecording_releases_setup_resources 1920 1080 30 env_io_fails
                (fst (StartScreenRecording 1920 1080 30 env_io_fails)) eq_refl)
      as (_ & _ & H). exact H.
Defined.

Lemma drain_no_alloc_packet (encTB streamTB : Rational) (steps : list DrainStep) :
  filter is_alloc_packet (fst (drain encTB streamTB steps)) = [].
Proof.
  induction steps as [|st steps IH]; [reflexivity|].
  destruct st as [[w|]|e]; simpl; try reflexivity.
  destruct (drain encTB streamTB steps) as [t' fin]. simpl in *. exact IH.
Qed.

Lemma main_loop_packet_count (encTB streamTB : Rational) (inc : Z) (evs : list Event) :
  forall fn,
  let '(tl, n, _) := main_loop encTB streamTB inc fn evs in
  (n <= count_where is_alloc_packet tl <= S n)%nat.
Proof.
  unfold count_where.
  induction evs as [|ev evs IH]; intros fn; simpl; [lia|].
  destruct ev as [|r]; simpl; [lia|].
  destruct (ir_conv r); simpl; [lia|].
  destruct (ir_send r); simpl; [lia|].
  destruct (ir_alloc_packet r); simpl; [|lia].
  pose proof (drain_no_alloc_packet encTB streamTB (ir_drain r)) as Hd.
  destruct (drain encTB streamTB (ir_drain r)) as [td []]; simpl in Hd.
  - specialize (IH (int64_wrap (fn + 1))).
    destruct (main_loop encTB streamTB inc (int64_wrap (fn + 1)) evs) as [[tr n] fin].
    simpl. rewrite filter_app, length_app, Hd. simpl. lia.
  - simpl. rewrite Hd. simpl. lia.
  - simpl. rewrite Hd. simpl. lia.
Qed.

(** Packets are freed only by the deferred calls: in a run that returns
    after the sampler started, no packet is freed inside the loop, and one
    free per allocated packet runs after it (all of them, but for a last
    allocation that failed). *)
Theorem StartScreenRecording_packets_freed_at_return (width height fps : Z)
  (env : RecEnv) (tr : list Action) :
  StartScreenRecording width height fps env = (tr, Returned) ->
  In AStartSampler tr ->
  exists tl n,
    tr = setup_prefix ++ tl ++ repeat AFreePacket n ++ deferred_tail /\
    ~ In AFreePacket tl /\
    (n <= count_where is_alloc_packet tl <= S n)%nat.
Proof.
  intros Hr Hin.
  pose proof (run_cases width height fps env) as Hc. rewrite Hr in Hc.
  destruct Hc as [(_ & Hs & _ & _) | [(_ & Hf & _) | (tl & n & fin' & _ & _ & Em & Hb)]].
  - exfalso. exact (setup_trace_not_in AStartSampler _ Hs eq_refl Hin).
  - discriminate.
  - pose proof (main_loop_actions tb_90k (stream_tb env) (go_quot (90 * 1000) fps)
                  (re_events env) 0) as Hl.
    pose proof (main_loop_packet_count tb_90k (stream_tb env) (go_quot (90 * 1000) fps)
                  (re_events env) 0) as Hn.
    rewrite Em in Hl, Hn. simpl in Hl.
    destruct Hb as [(_ & _ & Htr) | (Hne & Hf & _)]; [|exfalso; exact (Hne (eq_sym Hf))].
    exists tl, n. split; [exact Htr|]. split; [|exact Hn].
    apply (loop_trace_not_in _ _ _ _ Hl). simpl. auto.
Qed.

Lemma StartScreenRecording_packets_freed_at_return_witness :
  In AStartSampler (fst (StartScreenRecording 1920 1080 30 env_three_frames)) /\
  exists tl n,
    fst (StartScreenRecording 1920 1080 30 env_three_frames) =
      setup_prefix ++ tl ++ repeat AFreePacket n ++ deferred_tail /\
    ~ In AFreePacket tl /\ (n <= count_where is_alloc_packet tl <= S n)%nat.
Proof.
  split; [simpl; tauto|].
  apply (StartScreenRecording_packets_freed_at_return 1920 1080 30 env_three_frames
           (fst (StartScreenRecording 1920 1080 30 env_three_frames)) eq_refl).
  simpl; tauto.
Defined.

End ReleaseExtra.
